(** * Verba: the Gemini generator (goldenverba/components/generation/GeminiGenerator.py)

    A shallow embedding of the class [GPT4Generator]: the message composer
    [prepare_messages], the blocking [generate] and the streaming
    [generate_stream], followed by the properties of the specification that
    are stated about them.

    Python dictionaries are finite maps ([gmap]) keyed by strings, Python
    lists are lists, [list.append] adds at the end.  Calls that leave the
    process (the vertexai and openai clients) are recorded in a log and their
    outcomes are parameters of the development. *)

From stdpp Require Import base option list strings gmap fin_maps.
From Stdlib Require QArith.QArith_base.

Open Scope string_scope.
Open Scope list_scope.

(** ** Python values *)

(** A value that is either [None] or a [str]: the attributes of the openai
    module, what [os.getenv] returns, and the scalar fields of a backend
    response. *)
Inductive pyval :=
  | PyNone
  | PyStr (s : string).

#[global] Instance pyval_eq_dec : EqDecision pyval.
Proof. solve_decision. Defined.

(** [str(v)]. *)
Definition py_str (v : pyval) : string :=
  match v with
  | PyNone => "None"
  | PyStr s => s
  end.

(** Truth value of a [str] in a condition: the empty string is false. *)
Definition truthy (s : string) : bool :=
  match s with
  | EmptyString => false
  | String _ _ => true
  end.

(** [sep.join(l)]. *)
Fixpoint join (sep : string) (l : list string) : string :=
  match l with
  | [] => ""
  | [x] => x
  | x :: l' => x +:+ sep +:+ join sep l'
  end.

(** An entry of the conversation history: the composer reads its
    attributes [type] and [content]. *)
Record ConversationItem := {
  type : string;
  content : string;
}.

(** ** The message composer *)

Definition system_prompt : string :=
  "You are Verba, The Golden RAGtriever, a chatbot for Retrieval Augmented Generation (RAG). You will receive a user query and context pieces that have a semantic similarity to that specific query. Please answer these user queries only their provided context. If the provided documentation does not provide enough information, say so. If the user asks questions about you as a chatbot specifially, answer them naturally. If the answer requires code examples encapsulate them with ```programming-language-name ```. Don't do pseudo-code.".

(** The dictionary [{"role": role, "content": text}]. *)
Definition message_dict (role text : string) : gmap string string :=
  {[ "role" := role; "content" := text ]}.

(** The f-string of the closing user message. *)
Definition user_prompt (query user_context : string) : string :=
  "Please answer this query: '" +:+ query +:+
  "' with this provided context: " +:+ user_context.

(** [prepare_messages(self, queries, context, conversation)]: [messages]
    starts as the one-element list with the system entry, the loop appends
    one dictionary per conversation entry, the user entry is appended
    last. *)
Definition prepare_messages (queries context : list string)
    (conversation : list ConversationItem) : list (gmap string string) :=
  let messages := [message_dict "system" system_prompt] in
  let messages :=
    foldl (λ messages message,
             messages ++ [message_dict (type message) (content message)])
          messages conversation in
  let query := join " " queries in
  let user_context := join " " context in
  messages ++ [message_dict "user" (user_prompt query user_context)].

(** ** Exceptions, effects and the world *)

(** The exceptions that the code can meet.  [External] stands for any
    exception raised inside a client library (authentication, network, rate
    limit, ...), told apart by a tag; the end of an asynchronous iteration is
    the separate signal [StopAsyncIteration]. *)
Inductive exn :=
  | StopAsyncIteration
  | NameError (name : string)
  | ModuleNotFoundError (name : string)
  | TypeError
  | IndexError
  | KeyError (key : string)
  | External (tag : string).

#[global] Instance exn_eq_dec : EqDecision exn.
Proof. solve_decision. Defined.

(** The module-level attributes of the [openai] package that the code reads
    and assigns.  They are process-wide and survive between calls. *)
Record openai_module := {
  api_key : pyval;
  api_base : pyval;
  api_type : pyval;
  api_version : pyval;
}.

(** A value of the dictionary [chat_completion_arguments]. *)
Inductive argval :=
  | ArgStr (s : string)
  | ArgBool (b : bool)
  | ArgFloat (q : QArith_base.Q)
  | ArgMessages (l : list (gmap string string)).

(** The response of [openai.ChatCompletion.create], as far as the code
    indexes it: [completion["choices"][0]["message"]["content"]]. *)
Record completion_choice := {
  message : gmap string pyval;
}.

Record completion := {
  completion_choices : list completion_choice;
}.

(** A chunk of a streaming response:
    [chunk["choices"][0]["delta"]] and [chunk["choices"][0]["finish_reason"]]. *)
Record chunk_choice := {
  delta : gmap string pyval;
  finish_reason : pyval;
}.

Record chunk := {
  choices : list chunk_choice;
}.

(** What one [await completion.__anext__()] does while the stream is
    scripted: it hands over a chunk or raises inside the client.  When the
    script is used up the iterator raises [StopAsyncIteration]. *)
Inductive anext_result :=
  | Chunk (c : chunk)
  | Fails (tag : string).

(** The calls that leave the process.  A completion request is recorded with
    the module attributes that the client sees when it is called. *)
Inductive call :=
  | VertexaiInit (project : pyval) (location : string)
  | Create (cfg : openai_module) (args : gmap string argval)
  | ACreate (cfg : openai_module) (args : gmap string argval)
  | ANext.

(** Objects that live in the store and can be reached through several
    references: the three lists the composer is given and the list it
    builds. *)
Inductive pyobj :=
  | ObjStrList (l : list string)
  | ObjItemList (l : list ConversationItem)
  | ObjMessageList (l : list (gmap string string)).

(** The state that a call can read and change: the store, the attributes
    of the [openai] module, the log of outbound calls and the events
    yielded so far. *)
Record world := {
  heap : gmap positive pyobj;
  openai : openai_module;
  calls : list call;
  yielded : list (gmap string pyval);
}.

(** What is outside the program text: the process environment (after
    [load_dotenv()]), whether the [openai] package can be imported, and the
    behaviour of the three client entry points. *)
Record platform := {
  environ : gmap string string;
  openai_installed : bool;
  vertexai_init : pyval → string → option string;
  ChatCompletion_create :
    openai_module → gmap string argval → string + completion;
  ChatCompletion_acreate :
    openai_module → gmap string argval → string + list anext_result;
}.

(** A computation returns a value or raises, and leaves a world behind. *)
Inductive outcome (A : Type) :=
  | Returns (a : A)
  | Raises (e : exn).

Arguments Returns {A} a.
Arguments Raises {A} e.

Definition M (A : Type) : Type := world → outcome A * world.

#[global] Instance M_ret : MRet M := λ A a w, (Returns a, w).

#[global] Instance M_bind : MBind M := λ A B f m w,
  match m w with
  | (Returns a, w') => f a w'
  | (Raises e, w') => (Raises e, w')
  end.

Definition raise {A} (e : exn) : M A := λ w, (Raises e, w).

(** [try: body except ...: handler]; the handler decides which exceptions
    it takes by raising the others again. *)
Definition try_except {A} (body : M A) (handler : exn → M A) : M A := λ w,
  match body w with
  | (Returns a, w') => (Returns a, w')
  | (Raises e, w') => handler e w'
  end.

(** [except Exception: raise]. *)
Definition reraise {A} (e : exn) : M A := raise e.

(** [except StopAsyncIteration: pass]. *)
Definition pass_StopAsyncIteration (e : exn) : M unit :=
  match e with
  | StopAsyncIteration => mret ()
  | _ => raise e
  end.

Definition get_openai : M openai_module := λ w, (Returns (openai w), w).

Definition set_openai (f : openai_module → openai_module) : M unit := λ w,
  (Returns (),
   {| heap := heap w; openai := f (openai w);
      calls := calls w; yielded := yielded w |}).

Definition log (c : call) : M unit := λ w,
  (Returns (),
   {| heap := heap w; openai := openai w;
      calls := calls w ++ [c]; yielded := yielded w |}).

(** [yield event], seen from a consumer that takes every event. *)
Definition yield (event : gmap string pyval) : M unit := λ w,
  (Returns (),
   {| heap := heap w; openai := openai w;
      calls := calls w; yielded := yielded w ++ [event] |}).

Definition set_api_key (v : pyval) (o : openai_module) : openai_module :=
  {| api_key := v; api_base := api_base o;
     api_type := api_type o; api_version := api_version o |}.

Definition set_api_base (v : pyval) (o : openai_module) : openai_module :=
  {| api_key := api_key o; api_base := v;
     api_type := api_type o; api_version := api_version o |}.

Definition set_api_type (v : pyval) (o : openai_module) : openai_module :=
  {| api_key := api_key o; api_base := api_base o;
     api_type := v; api_version := api_version o |}.

Definition set_api_version (v : pyval) (o : openai_module) : openai_module :=
  {| api_key := api_key o; api_base := api_base o;
     api_type := api_type o; api_version := v |}.

(** [if cond: body]. *)
Definition when (cond : bool) (body : M unit) : M unit :=
  if cond then body else mret ().

(** ** Names *)

(** The names bound at the top level of the module: its imports and the
    class. *)
Definition module_globals : list string :=
  ["asyncio"; "os"; "Iterator"; "vertexai"; "GenerativeModel";
   "load_dotenv"; "Generator"; "GPT4Generator"].

(** The builtins that the file uses; [openai] is no builtin of Python. *)
Definition builtins : list string :=
  ["Exception"; "StopAsyncIteration"; "str"; "len"; "super"].

(** The local names of [generate]: its parameters and the names it
    assigns. *)
Definition generate_locals : list string :=
  ["self"; "queries"; "context"; "conversation"; "messages"; "project_id";
   "REGION"; "chat_completion_arguments"; "base_url"; "completion";
   "system_msg"].

(** The local names of [generate_stream]; [import openai] inside the
    function binds [openai] as one of them, and every read of the name
    comes after that statement. *)
Definition generate_stream_locals : list string :=
  ["self"; "queries"; "context"; "conversation"; "messages"; "openai";
   "base_url"; "chat_completion_arguments"; "completion"; "chunk"].

(** Reading a name inside a function: its locals, then the globals of the
    module, then the builtins. *)
Definition load_name (locals : list string) (name : string) : M unit :=
  if bool_decide (name ∈ locals ++ module_globals ++ builtins)
  then mret ()
  else raise (NameError name).

(** Reading an attribute of [openai]: the name is read first. *)
Definition openai_getattr (locals : list string) : M openai_module :=
  load_name locals "openai";; get_openai.

(** Assigning to an attribute of [openai]: the name is read first. *)
Definition openai_setattr (locals : list string)
    (f : openai_module → openai_module) : M unit :=
  load_name locals "openai";; set_openai f.

(** ** The generator object *)

Record GPT4Generator := {
  name : string;
  description : string;
  requires_library : list string;
  requires_env : list string;
  streamable : bool;
  model_name : string;
  context_window : Z;
}.

Section generator.
Variable p : platform.

(** [os.getenv(key)]. *)
Definition getenv (key : string) : pyval :=
  match environ p !! key with
  | Some v => PyStr v
  | None => PyNone
  end.

(** [os.environ.get(key, default)] with the empty string as default. *)
Definition environ_get (key : string) : string :=
  default "" (environ p !! key).

(** [key in os.environ]. *)
Definition in_environ (key : string) : bool :=
  bool_decide (is_Some (environ p !! key)).

(** [__init__]. *)
Definition init : GPT4Generator :=
  {| name := "GeminiGenerator";
     description := "Generator using Google's Gemini 1.5 Pro model";
     requires_library := ["google-cloud-aiplatform"];
     requires_env := ["GOOGLE_APPLICATION_CREDENTIALS"; "GOOGLE_CLOUD_PROJECT"];
     streamable := true;
     model_name :=
       default "gemini-1.5-pro-preview-0409" (environ p !! "GEMINI_MODEL");
     context_window := 10000%Z |}.

(** [vertexai.init(project=project_id, location=REGION)]. *)
Definition call_vertexai_init (project_id : pyval) (REGION : string) : M unit :=
  log (VertexaiInit project_id REGION);;
  match vertexai_init p project_id REGION with
  | None => mret ()
  | Some tag => raise (External tag)
  end.

(** [await asyncio.to_thread(openai.ChatCompletion.create, ...)] with the
    dictionary as keyword arguments. *)
Definition call_create (locals : list string)
    (arguments : gmap string argval) : M completion :=
  cfg ← openai_getattr locals;
  log (Create cfg arguments);;
  match ChatCompletion_create p cfg arguments with
  | inr completion => mret completion
  | inl tag => raise (External tag)
  end.

(** [await openai.ChatCompletion.acreate(...)] with the dictionary as
    keyword arguments. *)
Definition call_acreate (locals : list string)
    (arguments : gmap string argval) : M (list anext_result) :=
  cfg ← openai_getattr locals;
  log (ACreate cfg arguments);;
  match ChatCompletion_acreate p cfg arguments with
  | inr completion => mret completion
  | inl tag => raise (External tag)
  end.

(** [import openai]. *)
Definition import_openai : M unit :=
  if openai_installed p then mret ()
  else raise (ModuleNotFoundError "openai").

(** [l[0]]. *)
Definition first_item {A} (l : list A) : M A :=
  match l with
  | x :: _ => mret x
  | [] => raise IndexError
  end.

(** [d[key]]. *)
Definition getitem (d : gmap string pyval) (key : string) : M pyval :=
  match d !! key with
  | Some v => mret v
  | None => raise (KeyError key)
  end.

(** [generate(self, queries, context, conversation=None)].  The function
    has no binding for [openai]: the name is looked up among its locals, the
    module globals and the builtins each time it is read. *)
Definition generate (self : GPT4Generator) (queries context : list string)
    (conversation : option (list ConversationItem)) : M string :=
  let conversation := default [] conversation in
  let messages := prepare_messages queries context conversation in
  try_except
    (let project_id := getenv "GOOGLE_CLOUD_PROJECT" in
     let REGION := "us-central1" in
     call_vertexai_init project_id REGION;;
     let chat_completion_arguments : gmap string argval :=
       {[ "model" := ArgStr (model_name self);
          "messages" := ArgMessages messages ]} in
     cfg ← openai_getattr generate_locals;
     let chat_completion_arguments :=
       if bool_decide (api_type cfg = PyStr "azure")
       then <["deployment_id" := ArgStr (model_name self)]>
              chat_completion_arguments
       else chat_completion_arguments in
     let base_url := environ_get "OPENAI_BASE_URL" in
     when (truthy base_url)
       (openai_setattr generate_locals (set_api_base (PyStr base_url)));;
     completion ← call_create generate_locals chat_completion_arguments;
     choice ← first_item (completion_choices completion);
     answer ← getitem (message choice) "content";
     let system_msg := py_str answer in
     mret system_msg)
    reraise.

(** The body of the [while True] loop once a chunk has arrived. *)
Definition on_chunk (chunk : chunk) : M unit :=
  match choices chunk with
  | [] => mret ()
  | choice :: _ =>
      match delta choice !! "content" with
      | Some fragment =>
          yield {[ "message" := fragment;
                   "finish_reason" := finish_reason choice ]}
      | None =>
          yield {[ "message" := PyStr "";
                   "finish_reason" := finish_reason choice ]}
      end
  end.

(** [while True: chunk = await completion.__anext__(); ...] over a
    scripted stream. *)
Fixpoint stream_loop (completion : list anext_result) : M unit :=
  match completion with
  | [] => log ANext;; raise StopAsyncIteration
  | Fails tag :: _ => log ANext;; raise (External tag)
  | Chunk chunk :: completion =>
      log ANext;;
      on_chunk chunk;;
      stream_loop completion
  end.

(** [generate_stream(self, queries, context, conversation=None)], run by a
    consumer that asks for every event until the generator ends. *)
Definition generate_stream (self : GPT4Generator)
    (queries context : list string)
    (conversation : option (list ConversationItem)) : M unit :=
  let conversation := default [] conversation in
  let messages := prepare_messages queries context conversation in
  try_except
    (let locals := generate_stream_locals in
     import_openai;;
     openai_setattr locals (set_api_key (getenv "OPENAI_API_KEY"));;
     let base_url := environ_get "OPENAI_BASE_URL" in
     when (truthy base_url)
       (openai_setattr locals (set_api_base (PyStr base_url)));;
     when (in_environ "OPENAI_API_TYPE")
       (openai_setattr locals (set_api_type (getenv "OPENAI_API_TYPE")));;
     when (in_environ "OPENAI_API_BASE")
       (openai_setattr locals (set_api_base (getenv "OPENAI_API_BASE")));;
     when (in_environ "OPENAI_API_VERSION")
       (openai_setattr locals
          (set_api_version (getenv "OPENAI_API_VERSION")));;
     let chat_completion_arguments : gmap string argval :=
       {[ "model" := ArgStr (model_name self);
          "messages" := ArgMessages messages;
          "stream" := ArgBool true;
          "temperature" := ArgFloat (QArith_base.Qmake 0 1) ]} in
     cfg ← openai_getattr locals;
     let chat_completion_arguments :=
       if bool_decide (api_type cfg = PyStr "azure")
       then <["deployment_id" := ArgStr (model_name self)]>
              chat_completion_arguments
       else chat_completion_arguments in
     completion ← call_acreate locals chat_completion_arguments;
     try_except (stream_loop completion) pass_StopAsyncIteration)
    reraise.

End generator.

(** ** The composer on the store

    The same method with its arguments as references to list objects, so
    that what it does to the objects it is given can be stated. *)

Definition set_heap (f : gmap positive pyobj → gmap positive pyobj)
    : M unit := λ w,
  (Returns (),
   {| heap := f (heap w); openai := openai w;
      calls := calls w; yielded := yielded w |}).

(** A new object at an address that is not in use. *)
Definition alloc (o : pyobj) : M positive := λ w,
  let l := fresh (dom (heap w)) in
  (Returns l,
   {| heap := <[l := o]> (heap w); openai := openai w;
      calls := calls w; yielded := yielded w |}).

(** Reading a list of [str]. *)
Definition read_str_list (l : positive) : M (list string) := λ w,
  match heap w !! l with
  | Some (ObjStrList xs) => (Returns xs, w)
  | _ => (Raises TypeError, w)
  end.

(** Reading the list of conversation entries. *)
Definition read_item_list (l : positive) : M (list ConversationItem) := λ w,
  match heap w !! l with
  | Some (ObjItemList xs) => (Returns xs, w)
  | _ => (Raises TypeError, w)
  end.

(** [messages.append(x)]: the list object is changed in place. *)
Definition list_append (l : positive) (x : gmap string string) : M unit := λ w,
  match heap w !! l with
  | Some (ObjMessageList ms) =>
      set_heap (<[l := ObjMessageList (ms ++ [x])]>) w
  | _ => (Raises TypeError, w)
  end.

(** [for x in l: body]. *)
Fixpoint for_each {A} (l : list A) (body : A → M unit) : M unit :=
  match l with
  | [] => mret ()
  | x :: l' => body x;; for_each l' body
  end.

Definition prepare_messages_store (queries context conversation : positive)
    : M positive :=
  messages ← alloc (ObjMessageList [message_dict "system" system_prompt]);
  items ← read_item_list conversation;
  for_each items (λ message,
    list_append messages (message_dict (type message) (content message)));;
  qs ← read_str_list queries;
  let query := join " " qs in
  cs ← read_str_list context;
  let user_context := join " " cs in
  list_append messages (message_dict "user" (user_prompt query user_context));;
  mret messages.

(** ** Vocabulary of the statements *)

(** The calls logged between an earlier and a later world. *)
Definition new_calls (w w' : world) : list call :=
  drop (length (calls w)) (calls w').

(** The chunks that a scripted stream hands over before it fails or
    ends. *)
Fixpoint chunks_before (s : list anext_result) : list chunk :=
  match s with
  | Chunk c :: s' => c :: chunks_before s'
  | _ => []
  end.

(** The failure that stops a scripted stream, when there is one. *)
Fixpoint first_failure (s : list anext_result) : option string :=
  match s with
  | [] => None
  | Fails tag :: _ => Some tag
  | Chunk _ :: s' => first_failure s'
  end.

(** The exception that ends the loop over a scripted stream. *)
Definition stream_end (s : list anext_result) : exn :=
  match first_failure s with
  | None => StopAsyncIteration
  | Some tag => External tag
  end.

(** The events of one chunk, in closed form. *)
Definition chunk_events (c : chunk) : list (gmap string pyval) :=
  match choices c with
  | [] => []
  | choice :: _ =>
      [ {[ "message" := default (PyStr "") (delta choice !! "content");
           "finish_reason" := finish_reason choice ]} ]
  end.

(** The attributes of the [openai] module once [generate_stream] has
    applied the settings of the environment, in closed form. *)
Definition configured (p : platform) (o : openai_module) : openai_module :=
  let o := set_api_key (getenv p "OPENAI_API_KEY") o in
  let o := if truthy (environ_get p "OPENAI_BASE_URL")
           then set_api_base (PyStr (environ_get p "OPENAI_BASE_URL")) o
           else o in
  let o := if in_environ p "OPENAI_API_TYPE"
           then set_api_type (getenv p "OPENAI_API_TYPE") o else o in
  let o := if in_environ p "OPENAI_API_BASE"
           then set_api_base (getenv p "OPENAI_API_BASE") o else o in
  if in_environ p "OPENAI_API_VERSION"
  then set_api_version (getenv p "OPENAI_API_VERSION") o else o.

(** The arguments of the streaming request, in closed form. *)
Definition stream_arguments (self : GPT4Generator)
    (messages : list (gmap string string)) (cfg : openai_module)
    : gmap string argval :=
  let arguments : gmap string argval :=
    {[ "model" := ArgStr (model_name self);
       "messages" := ArgMessages messages;
       "stream" := ArgBool true;
       "temperature" := ArgFloat (QArith_base.Qmake 0 1) ]} in
  if bool_decide (api_type cfg = PyStr "azure")
  then <["deployment_id" := ArgStr (model_name self)]> arguments
  else arguments.

(** ** Scenarios *)

Definition fresh_openai : openai_module :=
  {| api_key := PyNone; api_base := PyStr "https://api.openai.com/v1";
     api_type := PyStr "open_ai"; api_version := PyNone |}.

Definition fresh_world : world :=
  {| heap := ∅; openai := fresh_openai; calls := []; yielded := [] |}.

(** Scenario B of the specification. *)
Definition scenario_B_conversation : list ConversationItem :=
  [ {| type := "user"; content := "hi" |};
    {| type := "assistant"; content := "hello" |} ].

(** Scenario C of the specification: a chunk without choices, then two
    chunks with a content fragment. *)
Definition no_choice_chunk : chunk := {| choices := [] |}.

Definition content_chunk (fragment reason : string) : chunk :=
  {| choices :=
       [ {| delta := {[ "content" := PyStr fragment ]};
            finish_reason := PyStr reason |} ] |}.


Definition scenario_C_stream : list anext_result :=
  [ Chunk no_choice_chunk;
    Chunk (content_chunk "Hel" "");
    Chunk (content_chunk "lo" "stop") ].

(** A stream that breaks after its first fragment. *)
Definition broken_stream : list anext_result :=
  [ Chunk (content_chunk "Hel" ""); Fails "connection reset";
    Chunk (content_chunk "lo" "stop") ].

(** Scenario A of the specification: a backend that answers every blocking
    request with one choice, and every streaming request with the stream
    given. *)
Definition scenario_platform (env : gmap string string)
    (stream : list anext_result) : platform :=
  {| environ := env;
     openai_installed := true;
     vertexai_init := λ _ _, None;
     ChatCompletion_create := λ _ _,
       inr {| completion_choices :=
                [ {| message := {[ "content" := PyStr "X is a protocol." ]} |} ] |};
     ChatCompletion_acreate := λ _ _, inr stream |}.

(** The same backend when the environment selects the azure routing. *)
Definition azure_platform : platform :=
  scenario_platform {[ "OPENAI_API_TYPE" := "azure" ]} scenario_C_stream.

(** Two stores that hold the same three lists at different addresses. *)
Definition store_world_1 : world :=
  {| heap := {[ 1%positive := ObjStrList ["a"; "b"];
                2%positive := ObjStrList ["c"];
                3%positive := ObjItemList scenario_B_conversation ]};
     openai := fresh_openai; calls := []; yielded := [] |}.

Definition store_world_2 : world :=
  {| heap := {[ 5%positive := ObjItemList scenario_B_conversation;
                7%positive := ObjStrList ["c"];
                8%positive := ObjStrList ["a"; "b"] ]};
     openai := fresh_openai; calls := [ANext]; yielded := [] |}.

(** The events yielded between an earlier and a later world. *)
Definition new_events (w w' : world) : list (gmap string pyval) :=
  drop (length (yielded w)) (yielded w').

(** [len(chunk["choices"]) > 0]. *)
Definition has_choice (c : chunk) : bool :=
  match choices c with
  | [] => false
  | _ :: _ => true
  end.

(** A machine on which the [openai] package is not installed. *)
Definition offline_platform : platform :=
  {| environ := ∅;
     openai_installed := false;
     vertexai_init := λ _ _, None;
     ChatCompletion_create := λ _ _, inl "unreachable";
     ChatCompletion_acreate := λ _ _, inl "unreachable" |}.

(** A backend that refuses every request, on a machine whose environment
    sets both base-URL variables. *)
Definition refusing_platform : platform :=
  {| environ := {[ "OPENAI_BASE_URL" := "http://localhost:8000";
                   "OPENAI_API_BASE" := "https://example.azure.com";
                   "GEMINI_MODEL" := "gemini-pro" ]};
     openai_installed := true;
     vertexai_init := λ _ _, Some "credentials";
     ChatCompletion_create := λ _ _, inl "rate limit";
     ChatCompletion_acreate := λ _ _, inl "rate limit" |}.

(** The attributes of a module that an earlier caller has configured. *)
Definition keyed_openai : openai_module :=
  {| api_key := PyStr "sk-earlier"; api_base := PyStr "https://api.openai.com/v1";
     api_type := PyStr "open_ai"; api_version := PyStr "2023-05-15" |}.

Definition keyed_world : world :=
  {| heap := ∅; openai := keyed_openai; calls := []; yielded := [] |}.

(** ** Properties of the composer *)

Section composer.
Implicit Types (queries context : list string).
Implicit Types (conversation : list ConversationItem).

(** The loop of the composer, started from any list, adds the image of
    the conversation at the end. *)
Lemma append_loop_map (acc : list (gmap string string)) conversation :
  foldl (λ messages message,
           messages ++ [message_dict (type message) (content message)])
        acc conversation
  = acc ++ ((λ message, message_dict (type message) (content message))
              <$> conversation).
Proof.
  revert acc. induction conversation as [|turn rest IH]; intros acc; simpl.
  - by rewrite app_nil_r.
  - rewrite IH. by rewrite <- app_assoc.
Qed.

(** The composed prompt in closed form. *)
Lemma prepare_messages_unfold queries context conversation :
  prepare_messages queries context conversation
  = message_dict "system" system_prompt
    :: ((λ message, message_dict (type message) (content message))
          <$> conversation)
    ++ [message_dict "user"
          (user_prompt (join " " queries) (join " " context))].
Proof. unfold prepare_messages. by rewrite append_loop_map. Qed.

Lemma message_dict_role role text :
message_dict role text !! "role" = Some role.
Proof. unfold message_dict. by simplify_map_eq. Qed.

Lemma message_dict_content role text :
  message_dict role text !! "content" = Some text.
Proof. unfold message_dict. by simplify_map_eq. Qed.

Lemma message_dict_dom role text :
  dom (message_dict role text) = {[ "role"; "content" ]}.
Proof. unfold message_dict. rewrite dom_insert_L, dom_singleton_L. done. Qed.

(** [join] keeps every element, in order, and puts the separator between
    neighbours only. *)
Lemma join_cons sep x y l :
  join sep (x :: y :: l) = x +:+ sep +:+ join sep (y :: l).
Proof. reflexivity. Qed.

Example join_keeps_duplicates : join " " ["a"; "b"; "a"; "a"] = "a b a a".
Proof. reflexivity. Qed.

(** C1.  For non-empty [queries] and [context] the composed prompt has
    [2 + |conversation|] entries, the first has role [system], the last has
    role [user], and entry [i + 1] is the [i]-th conversation entry: a
    dictionary with exactly the keys [role] and [content], holding the
    entry's type and content. *)
Theorem prepare_messages_shape queries context conversation :
  queries ≠ [] → context ≠ [] →
  let messages := prepare_messages queries context conversation in
  length messages = 2 + length conversation
  ∧ (∃ m, messages !! 0 = Some m ∧ m !! "role" = Some "system")
  ∧ (∃ m, last messages = Some m ∧ m !! "role" = Some "user")
  ∧ (∀ i turn, conversation !! i = Some turn →
       ∃ m, messages !! (S i) = Some m
            ∧ m !! "role" = Some (type turn)
            ∧ m !! "content" = Some (content turn)
            ∧ dom m = {[ "role"; "content" ]}).
Proof.
  intros _ _ messages. subst messages. rewrite prepare_messages_unfold.
  repeat split.
  - simpl. rewrite length_app, length_fmap. simpl. lia.
  - eexists. split; [done|]. apply message_dict_role.
  - eexists. split; [|apply message_dict_role].
    by rewrite app_comm_cons, last_snoc.
  - intros i turn Hi. eexists. split; [|split; [|split]].
    + simpl. rewrite lookup_app_l.
      * by rewrite list_lookup_fmap, Hi.
      * rewrite length_fmap. by eapply lookup_lt_Some.
    + apply message_dict_role.
    + apply message_dict_content.
    + apply message_dict_dom.
Qed.

Lemma prepare_messages_shape_witness :
  ["What is X?"] ≠ [] ∧ ["X is a protocol."] ≠ []
  ∧ length (prepare_messages ["What is X?"] ["X is a protocol."]
              scenario_B_conversation) = 4.
Proof.
  assert (Hq : ["What is X?"] ≠ []) by done.
  assert (Hc : ["X is a protocol."] ≠ []) by done.
  split; [exact Hq|]. split; [exact Hc|].
  exact (proj1 (prepare_messages_shape _ _ scenario_B_conversation Hq Hc)).
Defined.

(** The composer's [join] is the library's [String.concat]: the elements
    in order, the separator between neighbours and nowhere else. *)
Lemma join_concat (sep : string) (l : list string) :
  join sep l = String.concat sep l.
Proof.
  induction l as [|x l IH]; [done|].
  destruct l as [|y l]; [done|].
  rewrite join_cons, IH. reflexivity.
Qed.

(** C2.  The last entry of the composed prompt is the user message whose
    content is the fixed template filled with the queries and with the
    context, each list concatenated in its order with one space between
    neighbours ([String.concat] of the standard library), every element
    kept. *)
Theorem prepare_messages_user_message queries context conversation :
  ∃ m, last (prepare_messages queries context conversation) = Some m
       ∧ m !! "role" = Some "user"
       ∧ m !! "content"
         = Some ("Please answer this query: '"
                 +:+ String.concat " " queries
                 +:+ "' with this provided context: "
                 +:+ String.concat " " context).
Proof.
  rewrite prepare_messages_unfold. eexists. split; [|split].
  - by rewrite app_comm_cons, last_snoc.
  - apply message_dict_role.
  - rewrite message_dict_content, !join_concat. reflexivity.
Qed.


End composer.

(** ** Running computations *)

Section running.
Context {A B : Type}.
Implicit Types (m : M A) (f : A → M B) (w : world).

Lemma bind_returns m f w a w' :
  m w = (Returns a, w') → (m ≫= f) w = f a w'.
Proof. intros H. unfold mbind, M_bind. by rewrite H. Qed.

Lemma bind_raises m f w e w' :
  m w = (Raises e, w') → (m ≫= f) w = (Raises e, w').
Proof. intros H. unfold mbind, M_bind. by rewrite H. Qed.

(** [except Exception: raise] changes nothing. *)
Lemma try_except_reraise m w : try_except m reraise w = m w.
Proof. unfold try_except, reraise, raise. by destruct (m w) as [[a|e] w']. Qed.

End running.

(** ** The streaming loop *)

Section streaming.
Implicit Types (w : world) (s : list anext_result).

Lemma on_chunk_run chunk w :
  on_chunk chunk w
  = (Returns (),
     {| heap := heap w; openai := openai w; calls := calls w;
        yielded := yielded w ++ chunk_events chunk |}).
Proof.
  unfold on_chunk, chunk_events. destruct w as [h o cs ys].
  destruct (choices chunk) as [|choice others]; simpl.
  - by rewrite app_nil_r.
  - by destruct (delta choice !! "content").
Qed.

(** The loop always ends by an exception: the one that stops the stream.
    Up to there it asks the stream once per chunk and once more, and yields
    the events of the chunks in order. *)
Lemma stream_loop_run s w :
  stream_loop s w
  = (Raises (stream_end s),
     {| heap := heap w; openai := openai w;
        calls := calls w ++ replicate (S (length (chunks_before s))) ANext;
        yielded := yielded w ++ concat (chunk_events <$> chunks_before s) |}).
Proof.
  revert w. induction s as [|[c|tag] s IH]; intros [h o cs ys].
  - simpl. by rewrite app_nil_r.
  - cbn [stream_loop]. unfold mbind, M_bind. cbn [log].
    rewrite on_chunk_run, IH. cbn.
    unfold stream_end. cbn. do 2 f_equal.
    + by rewrite <- app_assoc.
    + by rewrite <- app_assoc.
  - simpl. by rewrite app_nil_r.
Qed.

Lemma chunks_before_chunks (cs : list chunk) :
  chunks_before (Chunk <$> cs) = cs.
Proof. induction cs as [|c cs IH]; [done|]. cbn. by rewrite IH. Qed.

Lemma first_failure_chunks (cs : list chunk) :
  first_failure (Chunk <$> cs) = None.
Proof. induction cs as [|c cs IH]; [done|]. cbn. by rewrite IH. Qed.

Lemma chunks_before_failure (cs : list chunk) tag s :
  chunks_before ((Chunk <$> cs) ++ Fails tag :: s) = cs.
Proof. induction cs as [|c cs IH]; [done|]. cbn. by rewrite IH. Qed.

Lemma first_failure_failure (cs : list chunk) tag s :
  first_failure ((Chunk <$> cs) ++ Fails tag :: s) = Some tag.
Proof. induction cs as [|c cs IH]; [done|]. cbn. by rewrite IH. Qed.

(** C4.  A chunk whose list of choices is empty yields nothing: the body
    of the loop leaves the world as it is, and the loop goes on with the
    rest of the stream as if it had only asked for that chunk. *)
Theorem empty_choices_skipped chunk s w :
  choices chunk = [] →
  on_chunk chunk w = (Returns (), w)
  ∧ stream_loop (Chunk chunk :: s) w = stream_loop s (log ANext w).2
  ∧ yielded (stream_loop (Chunk chunk :: s) w).2
    = yielded (stream_loop s w).2.
Proof.
  intros Hc. split; [|split].
  - unfold on_chunk. by rewrite Hc.
  - cbn [stream_loop]. unfold mbind, M_bind. cbn [log].
    unfold on_chunk. by rewrite Hc.
  - rewrite !stream_loop_run. cbn. unfold chunk_events at 1. by rewrite Hc.
Qed.

Lemma empty_choices_skipped_witness :
  choices no_choice_chunk = []
  ∧ yielded (stream_loop scenario_C_stream fresh_world).2
    = yielded (stream_loop (tail scenario_C_stream) fresh_world).2.
Proof.
  split; [reflexivity|].
  exact (proj2 (proj2 (empty_choices_skipped no_choice_chunk
                         (tail scenario_C_stream) fresh_world eq_refl))).
Defined.



End streaming.

(** ** The streaming generator *)

Section generate_stream.
Variable p : platform.
Implicit Types (w : world) (s : list anext_result) (self : GPT4Generator).
Implicit Types (queries context : list string).
Implicit Types (conversation : option (list ConversationItem)).

Lemma when_set_openai (c : bool) (f : openai_module → openai_module) w :
  when c (openai_setattr generate_stream_locals f) w
  = (Returns (),
     {| heap := heap w; openai := if c then f (openai w) else openai w;
        calls := calls w; yielded := yielded w |}).
Proof. destruct w, c; reflexivity. Qed.

(** Inside [generate_stream] the name [openai] is bound. *)
Lemma openai_getattr_in_generate_stream w :
  openai_getattr generate_stream_locals w = (Returns (openai w), w).
Proof. reflexivity. Qed.

Lemma call_acreate_run (arguments : gmap string argval) w :
  call_acreate p generate_stream_locals arguments w
  = (match ChatCompletion_acreate p (openai w) arguments with
     | inr s => Returns s
     | inl tag => Raises (External tag)
     end,
     {| heap := heap w; openai := openai w;
        calls := calls w ++ [ACreate (openai w) arguments];
        yielded := yielded w |}).
Proof.
  unfold call_acreate. destruct w as [h o cs ys].
  erewrite bind_returns; [|apply openai_getattr_in_generate_stream].
  unfold mbind, M_bind. cbn [log heap openai calls yielded].
  destruct (ChatCompletion_acreate p o arguments); reflexivity.
Qed.

(** The run of [generate_stream] up to the answer of the backend to the
    streaming request. *)
Lemma generate_stream_request self queries context conversation w :
  openai_installed p = true →
  let cfg := configured p (openai w) in
  let arguments :=
    stream_arguments self
      (prepare_messages queries context (default [] conversation)) cfg in
  generate_stream p self queries context conversation w
  = let w1 := {| heap := heap w; openai := cfg;
                 calls := calls w ++ [ACreate cfg arguments];
                 yielded := yielded w |} in
    match ChatCompletion_acreate p cfg arguments with
    | inr s => try_except (stream_loop s) pass_StopAsyncIteration w1
    | inl tag => (Raises (External tag), w1)
    end.
Proof.
  intros Hinst cfg arguments.
  transitivity
    ((call_acreate p generate_stream_locals arguments ≫= λ completion,
        try_except (stream_loop completion) pass_StopAsyncIteration)
       {| heap := heap w; openai := cfg;
          calls := calls w; yielded := yielded w |}).
  - unfold generate_stream. rewrite try_except_reraise.
    erewrite bind_returns; [|unfold import_openai; by rewrite Hinst].
    erewrite bind_returns; [|reflexivity].
    do 4 (erewrite bind_returns; [|apply when_set_openai]).
    reflexivity.
  - unfold mbind, M_bind. rewrite call_acreate_run. cbn [heap openai calls yielded].
    by destruct (ChatCompletion_acreate p cfg arguments).
Qed.

(** The whole run when the backend answers the request with a stream. *)
Lemma generate_stream_run self queries context conversation w s :
  openai_installed p = true →
  let cfg := configured p (openai w) in
  let arguments :=
    stream_arguments self
      (prepare_messages queries context (default [] conversation)) cfg in
  ChatCompletion_acreate p cfg arguments = inr s →
  generate_stream p self queries context conversation w
  = (match first_failure s with
     | None => Returns ()
     | Some tag => Raises (External tag)
     end,
     {| heap := heap w; openai := cfg;
        calls := calls w ++ ACreate cfg arguments
                   :: replicate (S (length (chunks_before s))) ANext;
        yielded := yielded w ++ concat (chunk_events <$> chunks_before s) |}).
Proof.
  intros Hinst cfg arguments Hs.
  rewrite generate_stream_request by done. fold cfg. fold arguments.
  cbn zeta. rewrite Hs. unfold try_except. rewrite stream_loop_run.
  cbn [heap openai calls yielded]. rewrite <- app_assoc.
  unfold stream_end. by destruct (first_failure s).
Qed.

(** When the package cannot be imported nothing else happens. *)
Lemma generate_stream_not_installed self queries context conversation w :
  openai_installed p = false →
  generate_stream p self queries context conversation w
  = (Raises (ModuleNotFoundError "openai"), w).
Proof.
  intros Hinst. unfold generate_stream. rewrite try_except_reraise.
  erewrite bind_raises; [done|]. unfold import_openai. by rewrite Hinst.
Qed.

Lemma new_calls_app w (h : gmap positive pyobj) o (l : list call) ys :
  new_calls w {| heap := h; openai := o; calls := calls w ++ l;
                 yielded := ys |} = l.
Proof. unfold new_calls. cbn. by rewrite drop_app_length. Qed.

Lemma new_calls_same w : new_calls w w = [].
Proof. unfold new_calls. by rewrite drop_all. Qed.

(** When the backend refuses the request its exception comes out and the
    request is not issued again. *)
Lemma generate_stream_refused self queries context conversation w tag :
  openai_installed p = true →
  let cfg := configured p (openai w) in
  let arguments :=
    stream_arguments self
      (prepare_messages queries context (default [] conversation)) cfg in
  ChatCompletion_acreate p cfg arguments = inl tag →
  generate_stream p self queries context conversation w
  = (Raises (External tag),
     {| heap := heap w; openai := cfg;
        calls := calls w ++ [ACreate cfg arguments];
        yielded := yielded w |}).
Proof.
  intros Hinst cfg arguments Htag.
  rewrite generate_stream_request by done. fold cfg. fold arguments.
  cbn zeta. by rewrite Htag.
Qed.

(** The calls of a run: nothing, or one streaming request followed by
    requests for the next chunk only. *)
Lemma generate_stream_calls self queries context conversation w :
  let w' := (generate_stream p self queries context conversation w).2 in
  let cfg := configured p (openai w) in
  let arguments :=
    stream_arguments self
      (prepare_messages queries context (default [] conversation)) cfg in
  new_calls w w' = []
  ∨ ∃ n, new_calls w w' = ACreate cfg arguments :: replicate n ANext.
Proof.
  intros w' cfg arguments. subst w'.
  destruct (openai_installed p) eqn:Hinst.
  - right.
    destruct (ChatCompletion_acreate p cfg arguments) as [tag|s] eqn:Hs.
    + exists 0. rewrite (generate_stream_refused _ _ _ _ _ tag) by done.
      apply new_calls_app.
    + eexists. rewrite (generate_stream_run _ _ _ _ _ s) by done.
      apply new_calls_app.
  - left. rewrite generate_stream_not_installed by done. apply new_calls_same.
Qed.

Lemma stream_arguments_lookup self (messages : list (gmap string string)) cfg :
  let arguments := stream_arguments self messages cfg in
  arguments !! "model" = Some (ArgStr (model_name self))
  ∧ arguments !! "messages" = Some (ArgMessages messages)
  ∧ arguments !! "stream" = Some (ArgBool true)
  ∧ arguments !! "temperature" = Some (ArgFloat (QArith_base.Qmake 0 1))
  ∧ arguments !! "deployment_id"
    = if bool_decide (api_type cfg = PyStr "azure")
      then Some (ArgStr (model_name self)) else None.
Proof.
  unfold stream_arguments. case_bool_decide; by simplify_map_eq.
Qed.

Lemma api_type_configured (o : openai_module) :
  api_type (configured p o)
  = if in_environ p "OPENAI_API_TYPE" then getenv p "OPENAI_API_TYPE"
    else api_type o.
Proof.
  unfold configured.
  destruct (truthy _), (in_environ p "OPENAI_API_TYPE"),
    (in_environ p "OPENAI_API_BASE"), (in_environ p "OPENAI_API_VERSION");
    reflexivity.
Qed.

(** C6.  Let the backend answer the streaming request with a finite
    scripted stream.  When the stream hands over its chunks and ends, the
    run returns normally.  When, after some chunks, the backend raises, the
    run raises that same exception.  In both cases the events of the chunks
    received so far have been yielded, one streaming request has been
    issued and the stream has been asked once per chunk received and once
    more: nothing is asked again after the end or the failure. *)
Theorem generate_stream_ends self queries context conversation w s :
  openai_installed p = true →
  (∀ cfg arguments, ChatCompletion_acreate p cfg arguments = inr s) →
  let r := generate_stream p self queries context conversation w in
  (∀ cs, s = Chunk <$> cs →
     r.1 = Returns ()
     ∧ yielded r.2 = yielded w ++ concat (chunk_events <$> cs)
     ∧ ∃ cfg arguments,
         new_calls w r.2
         = ACreate cfg arguments :: replicate (S (length cs)) ANext)
  ∧ (∀ cs tag rest, s = (Chunk <$> cs) ++ Fails tag :: rest →
     r.1 = Raises (External tag)
     ∧ yielded r.2 = yielded w ++ concat (chunk_events <$> cs)
     ∧ ∃ cfg arguments,
         new_calls w r.2
         = ACreate cfg arguments :: replicate (S (length cs)) ANext).
Proof.
  intros Hinst Hs r. subst r.
  rewrite (generate_stream_run _ _ _ _ _ s) by done.
  split.
  - intros cs ->. rewrite first_failure_chunks, chunks_before_chunks.
    split; [done|]. split; [done|].
    do 2 eexists. apply new_calls_app.
  - intros cs tag rest ->.
    rewrite first_failure_failure, chunks_before_failure.
    split; [done|]. split; [done|].
    do 2 eexists. apply new_calls_app.
Qed.

(** C8.  Every streaming request that a run of [generate_stream] issues
    has [stream] set to [True] and [temperature] set to [0.0]; its
    [deployment_id] is the model name when the [api_type] attribute that
    the client sees is [azure], and the key is absent otherwise.  That
    attribute is the value of OPENAI_API_TYPE when the environment has one,
    and the value the module had before otherwise. *)
Theorem stream_request_arguments self queries context conversation w
    cfg arguments :
  ACreate cfg arguments
    ∈ new_calls w (generate_stream p self queries context conversation w).2 →
  arguments !! "stream" = Some (ArgBool true)
  ∧ arguments !! "temperature" = Some (ArgFloat (QArith_base.Qmake 0 1))
  ∧ (arguments !! "deployment_id" = Some (ArgStr (model_name self))
     ↔ api_type cfg = PyStr "azure")
  ∧ (api_type cfg ≠ PyStr "azure" → arguments !! "deployment_id" = None)
  ∧ api_type cfg
    = (if in_environ p "OPENAI_API_TYPE" then getenv p "OPENAI_API_TYPE"
       else api_type (openai w)).
Proof.
  intros Hin.
  destruct (generate_stream_calls self queries context conversation w)
    as [Hnil|[n Hcalls]].
  - rewrite Hnil in Hin. by apply elem_of_nil in Hin.
  - rewrite Hcalls in Hin. apply elem_of_cons in Hin as [Heq|Hin].
    + injection Heq as -> ->.
      pose proof (stream_arguments_lookup self
        (prepare_messages queries context (default [] conversation))
        (configured p (openai w))) as (_ & _ & Hst & Ht & Hd).
      rewrite Hst, Ht, Hd, api_type_configured.
      split; [done|]. split; [done|].
      rewrite <- api_type_configured.
      case_bool_decide as Haz; split_and!; done.
    + apply elem_of_replicate in Hin as [Hin _]. discriminate Hin.
Qed.

End generate_stream.

Lemma generate_stream_ends_witness :
  (generate_stream (scenario_platform ∅ scenario_C_stream)
     (init (scenario_platform ∅ scenario_C_stream))
     ["What is X?"] ["X is a protocol."] None fresh_world).1 = Returns ()
  ∧ (generate_stream (scenario_platform ∅ broken_stream)
       (init (scenario_platform ∅ broken_stream))
       ["What is X?"] ["X is a protocol."] None fresh_world).1
    = Raises (External "connection reset").
Proof.
  split.
  - exact (proj1 (proj1 (generate_stream_ends
                           (scenario_platform ∅ scenario_C_stream)
                           (init (scenario_platform ∅ scenario_C_stream))
                           ["What is X?"] ["X is a protocol."] None
                           fresh_world scenario_C_stream eq_refl
                           (λ _ _, eq_refl))
                   [no_choice_chunk; content_chunk "Hel" "";
                    content_chunk "lo" "stop"] eq_refl)).
  - exact (proj1 (proj2 (generate_stream_ends
                           (scenario_platform ∅ broken_stream)
                           (init (scenario_platform ∅ broken_stream))
                           ["What is X?"] ["X is a protocol."] None
                           fresh_world broken_stream eq_refl
                           (λ _ _, eq_refl))
                   [content_chunk "Hel" ""] "connection reset"
                   [Chunk (content_chunk "lo" "stop")] eq_refl)).
Defined.

Lemma stream_request_arguments_witness :
  ACreate (configured azure_platform fresh_openai)
    (stream_arguments (init azure_platform)
       (prepare_messages ["What is X?"] ["X is a protocol."] [])
       (configured azure_platform fresh_openai))
    ∈ new_calls fresh_world
        (generate_stream azure_platform (init azure_platform)
           ["What is X?"] ["X is a protocol."] None fresh_world).2
  ∧ stream_arguments (init azure_platform)
      (prepare_messages ["What is X?"] ["X is a protocol."] [])
      (configured azure_platform fresh_openai) !! "deployment_id"
    = Some (ArgStr "gemini-1.5-pro-preview-0409").
Proof.
  assert (Hin : ACreate (configured azure_platform fresh_openai)
            (stream_arguments (init azure_platform)
               (prepare_messages ["What is X?"] ["X is a protocol."] [])
               (configured azure_platform fresh_openai))
            ∈ new_calls fresh_world
                (generate_stream azure_platform (init azure_platform)
                   ["What is X?"] ["X is a protocol."] None fresh_world).2)
    by (vm_compute; left).
  split; [exact Hin|].
  pose proof (stream_request_arguments azure_platform (init azure_platform)
                _ _ _ _ _ _ Hin) as (_ & _ & Hdep & _).
  apply Hdep. reflexivity.
Defined.

(** ** The blocking generator *)

Section generate.
Variable p : platform.
Implicit Types (w : world) (self : GPT4Generator).
Implicit Types (queries context : list string).
Implicit Types (conversation : option (list ConversationItem)).

(** [openai] is neither a local of [generate], nor a global of the module,
    nor a builtin. *)
Lemma load_openai_in_generate w :
  load_name generate_locals "openai" w = (Raises (NameError "openai"), w).
Proof. reflexivity. Qed.

Lemma openai_getattr_in_generate w :
  openai_getattr generate_locals w = (Raises (NameError "openai"), w).
Proof. reflexivity. Qed.

Lemma call_vertexai_init_run (project_id : pyval) (REGION : string) w :
  call_vertexai_init p project_id REGION w
  = (match vertexai_init p project_id REGION with
     | None => Returns ()
     | Some tag => Raises (External tag)
     end,
     {| heap := heap w; openai := openai w;
        calls := calls w ++ [VertexaiInit project_id REGION];
        yielded := yielded w |}).
Proof.
  unfold call_vertexai_init, mbind, M_bind. cbn [log].
  by destruct (vertexai_init p project_id REGION).
Qed.

(** Every run of [generate] stops at the first read of [openai], unless
    [vertexai.init] has raised before. *)
Lemma generate_run self queries context conversation w :
  generate p self queries context conversation w
  = (Raises
       (match vertexai_init p (getenv p "GOOGLE_CLOUD_PROJECT")
                "us-central1" with
        | None => NameError "openai"
        | Some tag => External tag
        end),
     {| heap := heap w; openai := openai w;
        calls := calls w
                   ++ [VertexaiInit (getenv p "GOOGLE_CLOUD_PROJECT")
                         "us-central1"];
        yielded := yielded w |}).
Proof.
  unfold generate. rewrite try_except_reraise.
  unfold mbind at 1, M_bind at 1. rewrite call_vertexai_init_run.
  destruct (vertexai_init p _ _) as [tag|]; [done|].
  erewrite bind_raises; [done|]. apply openai_getattr_in_generate.
Qed.

(** C10.  Every run of the blocking [generate] raises and returns no
    answer, and no completion request is among the calls it makes: the only
    outbound call is [vertexai.init], and when that call returns, the
    exception is the [NameError] for the name [openai]. *)
Theorem generate_always_raises self queries context conversation w :
  let r := generate p self queries context conversation w in
  r.1 = Raises
          (match vertexai_init p (getenv p "GOOGLE_CLOUD_PROJECT")
                   "us-central1" with
           | None => NameError "openai"
           | Some tag => External tag
           end)
  ∧ (∀ answer, r.1 ≠ Returns answer)
  ∧ new_calls w r.2
    = [VertexaiInit (getenv p "GOOGLE_CLOUD_PROJECT") "us-central1"]
  ∧ (∀ cfg arguments, Create cfg arguments ∉ new_calls w r.2).
Proof.
  intros r. subst r. rewrite generate_run. cbn [fst snd].
  split; [done|]. split; [done|].
  rewrite new_calls_app. split; [done|].
  intros cfg arguments Hin. apply list_elem_of_singleton in Hin. discriminate Hin.
Qed.

End generate.

(** C7.  Scenario A, run on the code: the backend would answer
    [X is a protocol.], yet the call raises [NameError] for [openai], no
    completion request is issued and no answer is returned. *)
Theorem generate_scenario_A :
  generate (scenario_platform ∅ scenario_C_stream)
    (init (scenario_platform ∅ scenario_C_stream))
    ["What is X?"] ["X is a protocol."] (Some []) fresh_world
  = (Raises (NameError "openai"),
     {| heap := ∅; openai := fresh_openai;
        calls := [VertexaiInit PyNone "us-central1"]; yielded := [] |}).
Proof. reflexivity. Qed.

(** ** The composer on the store *)

Section store.
Implicit Types (w : world) (l : positive).
Implicit Types (ms : list (gmap string string)).

(** The loop appends the image of the entries to the list object and
    touches nothing else. *)
Lemma append_loop_store (items : list ConversationItem) l ms w :
  heap w !! l = Some (ObjMessageList ms) →
  for_each items (λ message,
    list_append l (message_dict (type message) (content message))) w
  = (Returns (),
     {| heap := <[l := ObjMessageList
                        (ms ++ ((λ message,
                                   message_dict (type message) (content message))
                                  <$> items))]> (heap w);
        openai := openai w; calls := calls w; yielded := yielded w |}).
Proof.
  revert ms w. induction items as [|item items IH]; intros ms w Hl.
  - cbn. rewrite app_nil_r, insert_id by done. by destruct w.
  - cbn [for_each]. unfold mbind, M_bind.
    unfold list_append at 1. rewrite Hl. cbn [set_heap].
    rewrite (IH (ms ++ [message_dict (type item) (content item)])).
    + cbn [heap openai calls yielded].
      rewrite insert_insert_eq, <- app_assoc. done.
    + cbn. apply lookup_insert_eq.
Qed.

(** The run of the composer on a store that holds its three arguments. *)
Lemma prepare_messages_store_run (queries context conversation : positive)
    (qs cs : list string) (items : list ConversationItem) w :
  heap w !! queries = Some (ObjStrList qs) →
  heap w !! context = Some (ObjStrList cs) →
  heap w !! conversation = Some (ObjItemList items) →
  prepare_messages_store queries context conversation w
  = (Returns (fresh (dom (heap w))),
     {| heap := <[fresh (dom (heap w)) :=
                    ObjMessageList (prepare_messages qs cs items)]> (heap w);
        openai := openai w; calls := calls w; yielded := yielded w |}).
Proof.
  intros Hq Hc Hv. set (l := fresh (dom (heap w))).
  assert (Hl : heap w !! l = None) by apply not_elem_of_dom, is_fresh.
  assert (Hlq : l ≠ queries) by (intros ->; congruence).
  assert (Hlc : l ≠ context) by (intros ->; congruence).
  assert (Hlv : l ≠ conversation) by (intros ->; congruence).
  unfold prepare_messages_store.
  unfold mbind at 1, M_bind at 1. cbn [alloc]. fold l.
  erewrite bind_returns;
    [|unfold read_item_list; cbn [heap];
      rewrite lookup_insert_ne, Hv by done; reflexivity].
  erewrite bind_returns;
    [|apply append_loop_store; cbn [heap]; apply lookup_insert_eq].
  cbn [heap openai calls yielded]. rewrite insert_insert_eq.
  erewrite bind_returns;
    [|unfold read_str_list; cbn [heap];
      rewrite lookup_insert_ne, Hq by done; reflexivity].
  erewrite bind_returns;
    [|unfold read_str_list; cbn [heap];
      rewrite lookup_insert_ne, Hc by done; reflexivity].
  erewrite bind_returns;
    [|unfold list_append; cbn [heap]; rewrite lookup_insert_eq; reflexivity].
  cbn. by rewrite insert_insert_eq, prepare_messages_unfold.
Qed.

(** C9.  Run on two stores that hold equal queries, context and
    conversation, the composer returns in both, and the two lists it returns
    are equal: they are the value of [prepare_messages] at the three
    contents.  The list returned is a new object; every object that was in
    the store, the three arguments among them, is as it was; the attributes
    of the [openai] module, the log of outbound calls and the events yielded
    are as they were. *)
Theorem prepare_messages_pure (q1 c1 v1 q2 c2 v2 : positive)
    (qs cs : list string) (items : list ConversationItem) (w1 w2 : world) :
  heap w1 !! q1 = Some (ObjStrList qs) →
  heap w1 !! c1 = Some (ObjStrList cs) →
  heap w1 !! v1 = Some (ObjItemList items) →
  heap w2 !! q2 = Some (ObjStrList qs) →
  heap w2 !! c2 = Some (ObjStrList cs) →
  heap w2 !! v2 = Some (ObjItemList items) →
  ∃ m1 w1' m2 w2',
    prepare_messages_store q1 c1 v1 w1 = (Returns m1, w1')
    ∧ prepare_messages_store q2 c2 v2 w2 = (Returns m2, w2')
    ∧ heap w1' !! m1 = Some (ObjMessageList (prepare_messages qs cs items))
    ∧ heap w2' !! m2 = Some (ObjMessageList (prepare_messages qs cs items))
    ∧ heap w1 !! m1 = None
    ∧ (∀ l o, heap w1 !! l = Some o → heap w1' !! l = Some o)
    ∧ openai w1' = openai w1
    ∧ calls w1' = calls w1
    ∧ yielded w1' = yielded w1.
Proof.
  intros Hq1 Hc1 Hv1 Hq2 Hc2 Hv2.
  do 4 eexists.
  split; [by apply prepare_messages_store_run|].
  split; [by apply prepare_messages_store_run|].
  cbn [heap openai calls yielded].
  assert (Hfresh : heap w1 !! fresh (dom (heap w1)) = None)
    by apply not_elem_of_dom, is_fresh.
  split; [apply lookup_insert_eq|]. split; [apply lookup_insert_eq|].
  split; [done|]. split; [|done].
  intros l o Hl. rewrite lookup_insert_ne; [done|]. intros <-. congruence.
Qed.

End store.

Lemma prepare_messages_pure_witness :
  ∃ m1 w1' m2 w2',
    prepare_messages_store 1 2 3 store_world_1 = (Returns m1, w1')
    ∧ prepare_messages_store 8 7 5 store_world_2 = (Returns m2, w2')
    ∧ heap w1' !! m1
      = Some (ObjMessageList
                (prepare_messages ["a"; "b"] ["c"] scenario_B_conversation))
    ∧ heap w2' !! m2
      = Some (ObjMessageList
                (prepare_messages ["a"; "b"] ["c"] scenario_B_conversation))
    ∧ heap store_world_1 !! m1 = None
    ∧ (∀ l o, heap store_world_1 !! l = Some o → heap w1' !! l = Some o)
    ∧ openai w1' = openai store_world_1
    ∧ calls w1' = calls store_world_1
    ∧ yielded w1' = yielded store_world_1.
Proof.
  exact (prepare_messages_pure 1 2 3 8 7 5 ["a"; "b"] ["c"]
           scenario_B_conversation store_world_1 store_world_2
           eq_refl eq_refl eq_refl eq_refl eq_refl eq_refl).
Defined.

(** Scenario C, run on the code: the chunk without choices is skipped and
    the two fragments come out in order, the second with its finish
    reason. *)
Example generate_stream_scenario_C :
  let r := generate_stream (scenario_platform ∅ scenario_C_stream)
             (init (scenario_platform ∅ scenario_C_stream))
             ["What is X?"] ["X is a protocol."] None fresh_world in
  r.1 = Returns ()
  ∧ yielded r.2
    = [ {[ "message" := PyStr "Hel"; "finish_reason" := PyStr "" ]};
        {[ "message" := PyStr "lo"; "finish_reason" := PyStr "stop" ]} ].
Proof. split; reflexivity. Qed.

(** * Further properties *)

(** ** The composer *)

Section composer_more.
Implicit Types (queries context : list string).
Implicit Types (conversation : list ConversationItem).

Lemma message_dict_inj role text role' text' :
  message_dict role text = message_dict role' text' →
  role = role' ∧ text = text'.
Proof.
  intros Heq. split.
  - pose proof (message_dict_role role text) as H. rewrite Heq in H.
    rewrite message_dict_role in H. congruence.
  - pose proof (message_dict_content role text) as H. rewrite Heq in H.
    rewrite message_dict_content in H. congruence.
Qed.


Lemma turn_message_inj :
  Inj (=) (=) (λ message : ConversationItem,
                 message_dict (type message) (content message)).
Proof.
  intros [t1 c1] [t2 c2] Heq. cbn in Heq.
  apply message_dict_inj in Heq as [-> ->]. done.
Qed.

(** X1.  The composed prompt keeps the whole conversation: two prompts
    are equal only if they were composed from the same conversation,
    whatever the queries and the context. *)
Theorem prepare_messages_conversation_inj queries context conversation
    queries' context' conversation' :
  prepare_messages queries context conversation
  = prepare_messages queries' context' conversation' →
  conversation = conversation'.
Proof.
  rewrite !prepare_messages_unfold. intros Heq.
  injection Heq as Heq. apply app_inj_2 in Heq as [Heq _]; [|done].
  by apply (list_fmap_eq_inj _ turn_message_inj) in Heq.
Qed.


(** X3.  Queries and context reach the last entry only: the entries before
    it are the fixed system entry and the conversation, the same for any
    queries and context. *)
Theorem prepare_messages_prefix queries context queries' context'
    conversation :
  take (S (length conversation))
    (prepare_messages queries context conversation)
  = take (S (length conversation))
      (prepare_messages queries' context' conversation)
  ∧ head (prepare_messages queries context conversation)
    = Some (message_dict "system" system_prompt).
Proof.
  rewrite !prepare_messages_unfold. split; [|done].
  cbn [take]. by rewrite !take_app_length' by by rewrite length_fmap.
Qed.

End composer_more.

Lemma prepare_messages_conversation_inj_witness :
  prepare_messages ["a"; "b"] ["c"] scenario_B_conversation
  = prepare_messages ["a b"] ["c"] scenario_B_conversation
  ∧ scenario_B_conversation = scenario_B_conversation.
Proof.
  split; [reflexivity|].
  exact (prepare_messages_conversation_inj ["a"; "b"] ["c"]
           scenario_B_conversation ["a b"] ["c"] scenario_B_conversation
           eq_refl).
Defined.

(** ** The streaming loop *)

Section streaming_more.
Implicit Types (w : world) (s : list anext_result) (cs : list chunk).

Lemma chunks_before_app cs s :
  chunks_before ((Chunk <$> cs) ++ s) = cs ++ chunks_before s.
Proof. induction cs as [|c cs IH]; [done|]. cbn. by rewrite IH. Qed.

Lemma first_failure_app cs s :
  first_failure ((Chunk <$> cs) ++ s) = first_failure s.
Proof. induction cs as [|c cs IH]; [done|]. cbn. by rewrite IH. Qed.

Lemma chunk_events_shape (c : chunk) (event : gmap string pyval) :
  event ∈ chunk_events c →
  ∃ choice others,
    choices c = choice :: others
    ∧ event = {[ "message" := default (PyStr "") (delta choice !! "content");
                 "finish_reason" := finish_reason choice ]}.
Proof.
  unfold chunk_events. destruct (choices c) as [|choice others].
  - intros Hin. by apply elem_of_nil in Hin.
  - intros Hin%list_elem_of_singleton. eauto.
Qed.

Lemma chunk_events_length (c : chunk) :
  length (chunk_events c) = if has_choice c then 1 else 0.
Proof. unfold chunk_events, has_choice. by destruct (choices c). Qed.

Lemma concat_chunk_events_length cs :
  length (concat (chunk_events <$> cs))
  = length (filter (λ c, has_choice c = true) cs).
Proof.
  induction cs as [|c cs IH]; [done|].
  cbn [fmap list_fmap concat]. rewrite length_app, chunk_events_length, IH.
  rewrite filter_cons. destruct (has_choice c); by case_decide.
Qed.

(** X5.  Only the first choice of a chunk is read: two chunks with the
    same first choice (or both without choices) are handled alike,
    whatever their other choices. *)
Theorem on_chunk_first_choice_only (chunk chunk' : chunk) w :
  head (choices chunk) = head (choices chunk') →
  on_chunk chunk w = on_chunk chunk' w.
Proof.
  intros Hhead. unfold on_chunk.
  destruct (choices chunk) as [|c others],
    (choices chunk') as [|c' others']; try done.
  by injection Hhead as ->.
Qed.

(** X6.  The loop over a stream that starts with some chunks is the loop
    over the rest, started in the world where those chunks have been asked
    for and their events yielded, in order. *)
Theorem stream_loop_app cs s w :
  stream_loop ((Chunk <$> cs) ++ s) w
  = stream_loop s
      {| heap := heap w; openai := openai w;
         calls := calls w ++ replicate (length cs) ANext;
         yielded := yielded w ++ concat (chunk_events <$> cs) |}.
Proof.
  rewrite !stream_loop_run. cbn [heap openai calls yielded].
  unfold stream_end. rewrite first_failure_app, chunks_before_app.
  rewrite length_app, fmap_app, concat_app, <- !app_assoc.
  by rewrite <- replicate_add, <- Nat.add_succ_r.
Qed.

(** X7.  The loop yields one event for each chunk received that has a
    choice and none for the others, so never more events than chunks. *)
Theorem stream_loop_event_count s w :
  length (new_events w (stream_loop s w).2)
  = length (filter (λ c, has_choice c = true) (chunks_before s))
  ∧ (length (new_events w (stream_loop s w).2)
     ≤ length (chunks_before s))%nat.
Proof.
  rewrite stream_loop_run. unfold new_events. cbn [snd yielded].
  rewrite drop_app_length, concat_chunk_events_length.
  split; [done|]. apply length_filter.
Qed.

End streaming_more.

Lemma on_chunk_first_choice_only_witness :
  head (choices (content_chunk "lo" "stop"))
  = head (choices
            {| choices :=
                 [ {| delta := {[ "content" := PyStr "lo" ]};
                      finish_reason := PyStr "stop" |};
                   {| delta := {[ "content" := PyStr "other" ]};
                      finish_reason := PyNone |} ] |})
  ∧ on_chunk (content_chunk "lo" "stop") fresh_world
    = on_chunk
        {| choices :=
             [ {| delta := {[ "content" := PyStr "lo" ]};
                  finish_reason := PyStr "stop" |};
               {| delta := {[ "content" := PyStr "other" ]};
                  finish_reason := PyNone |} ] |} fresh_world.
Proof.
  split; [reflexivity|].
  exact (on_chunk_first_choice_only (content_chunk "lo" "stop") _ fresh_world
           eq_refl).
Defined.

(** ** The streaming generator *)

Section generate_stream_more.
Variable p : platform.
Implicit Types (w : world) (s : list anext_result) (self : GPT4Generator).
Implicit Types (queries context : list string).
Implicit Types (conversation : option (list ConversationItem)).

(** The world after a run on a machine that has the package. *)
Lemma generate_stream_installed self queries context conversation w :
  openai_installed p = true →
  ∃ r n cs,
    generate_stream p self queries context conversation w
    = (r,
       {| heap := heap w; openai := configured p (openai w);
          calls := calls w
                     ++ ACreate (configured p (openai w))
                          (stream_arguments self
                             (prepare_messages queries context
                                (default [] conversation))
                             (configured p (openai w)))
                        :: replicate n ANext;
          yielded := yielded w ++ concat (chunk_events <$> cs) |}).
Proof.
  intros Hinst.
  destruct (ChatCompletion_acreate p (configured p (openai w))
              (stream_arguments self
                 (prepare_messages queries context (default [] conversation))
                 (configured p (openai w)))) as [tag|s] eqn:Hs.
  - exists (Raises (External tag)), 0, [].
    rewrite (generate_stream_refused _ _ _ _ _ _ tag) by done.
    cbn. by rewrite app_nil_r.
  - do 3 eexists. by rewrite (generate_stream_run _ _ _ _ _ _ s) by done.
Qed.

Lemma new_events_app w (h : gmap positive pyobj) o cs
    (l : list (gmap string pyval)) :
  new_events w {| heap := h; openai := o; calls := cs;
                  yielded := yielded w ++ l |} = l.
Proof. unfold new_events. cbn. by rewrite drop_app_length. Qed.

Lemma api_key_configured (o : openai_module) :
  api_key (configured p o) = getenv p "OPENAI_API_KEY".
Proof.
  unfold configured.
  destruct (truthy _), (in_environ p "OPENAI_API_TYPE"),
    (in_environ p "OPENAI_API_BASE"), (in_environ p "OPENAI_API_VERSION");
    reflexivity.
Qed.

Lemma api_base_configured (o : openai_module) :
  api_base (configured p o)
  = if in_environ p "OPENAI_API_BASE" then getenv p "OPENAI_API_BASE"
    else if truthy (environ_get p "OPENAI_BASE_URL")
         then PyStr (environ_get p "OPENAI_BASE_URL")
         else api_base o.
Proof.
  unfold configured.
  destruct (truthy _), (in_environ p "OPENAI_API_TYPE"),
    (in_environ p "OPENAI_API_BASE"), (in_environ p "OPENAI_API_VERSION");
    reflexivity.
Qed.

Lemma configured_idemp (o : openai_module) :
  configured p (configured p o) = configured p o.
Proof.
  unfold configured. destruct o.
  destruct (truthy _), (in_environ p "OPENAI_API_TYPE"),
    (in_environ p "OPENAI_API_BASE"), (in_environ p "OPENAI_API_VERSION");
    reflexivity.
Qed.

(** X8.  Every event of a run is a dictionary with exactly the two keys
    [message] and [finish_reason]. *)
Theorem generate_stream_event_shape self queries context conversation w
    (event : gmap string pyval) :
  event ∈ new_events w
            (generate_stream p self queries context conversation w).2 →
  (∃ text reason,
     event = {[ "message" := text; "finish_reason" := reason ]})
  ∧ dom event = {[ "message"; "finish_reason" ]}.
Proof.
  intros Hin.
  assert (∃ c, event ∈ chunk_events c) as [c Hc].
  { destruct (openai_installed p) eqn:Hinst.
    - destruct (generate_stream_installed self queries context conversation w
                  Hinst) as (r & n & cs & Hrun).
      rewrite Hrun in Hin. cbn [snd] in Hin. rewrite new_events_app in Hin.
      apply list_elem_of_In, in_concat in Hin as (l & Hl & Hev).
      apply list_elem_of_In, list_elem_of_fmap in Hl as (c & -> & _).
      exists c. by apply list_elem_of_In.
    - rewrite generate_stream_not_installed in Hin by done.
      unfold new_events in Hin. cbn [snd] in Hin. rewrite drop_all in Hin.
      by apply elem_of_nil in Hin. }
  apply chunk_events_shape in Hc as (choice & others & _ & ->).
  split; [eauto|]. by rewrite dom_insert_L, dom_singleton_L.
Qed.

(** X9.  When the backend hands over its chunks and ends, and the last
    chunk has a choice, the last event of the run carries the finish reason
    of that chunk's first choice. *)
Theorem generate_stream_last_finish_reason self queries context conversation
    w (cs : list chunk) (c : chunk) (choice : chunk_choice)
    (others : list chunk_choice) :
  openai_installed p = true →
  (∀ cfg arguments,
     ChatCompletion_acreate p cfg arguments = inr (Chunk <$> (cs ++ [c]))) →
  choices c = choice :: others →
  let r := generate_stream p self queries context conversation w in
  r.1 = Returns ()
  ∧ ∃ event, last (yielded r.2) = Some event
             ∧ event !! "finish_reason" = Some (finish_reason choice).
Proof.
  intros Hinst Hs Hc r. subst r.
  rewrite (generate_stream_run _ _ _ _ _ _ (Chunk <$> (cs ++ [c]))) by done.
  rewrite first_failure_chunks, chunks_before_chunks. split; [done|].
  cbn [snd yielded]. rewrite fmap_app, concat_app. cbn [fmap list_fmap concat].
  unfold chunk_events at 2. rewrite Hc, app_nil_r, app_assoc, last_snoc.
  eexists. split; [done|]. by simplify_map_eq.
Qed.

(** X10.  On a machine without the [openai] package the run raises
    [ModuleNotFoundError] and leaves everything as it was: no outbound
    call, no event, no change to the module attributes. *)
Theorem generate_stream_without_openai self queries context conversation w :
  openai_installed p = false →
  generate_stream p self queries context conversation w
  = (Raises (ModuleNotFoundError "openai"), w).
Proof.
  intros Hinst. unfold generate_stream. rewrite try_except_reraise.
  erewrite bind_raises; [done|]. unfold import_openai. by rewrite Hinst.
Qed.

(** X11.  When the backend refuses the streaming request, the run raises
    the exception of the backend, has issued that one request and nothing
    after it, and has yielded nothing. *)
Theorem generate_stream_request_refused self queries context conversation w
    (tag : string) :
  openai_installed p = true →
  (∀ cfg arguments, ChatCompletion_acreate p cfg arguments = inl tag) →
  let r := generate_stream p self queries context conversation w in
  r.1 = Raises (External tag)
  ∧ new_events w r.2 = []
  ∧ ∃ cfg arguments, new_calls w r.2 = [ACreate cfg arguments].
Proof.
  intros Hinst Htag r. subst r.
  rewrite (generate_stream_refused _ _ _ _ _ _ tag) by done.
  split; [done|]. split.
  - unfold new_events. cbn. apply drop_all.
  - do 2 eexists. apply new_calls_app.
Qed.

(** X12.  A run on a machine that has the package always assigns
    [openai.api_key] from OPENAI_API_KEY: when the variable is not set the
    attribute becomes [None], whatever key the module held before. *)
Theorem generate_stream_overwrites_api_key self queries context conversation
    w :
  openai_installed p = true →
  let w' := (generate_stream p self queries context conversation w).2 in
  api_key (openai w') = getenv p "OPENAI_API_KEY"
  ∧ (environ p !! "OPENAI_API_KEY" = None → api_key (openai w') = PyNone).
Proof.
  intros Hinst w'. subst w'.
  destruct (generate_stream_installed self queries context conversation w
              Hinst) as (r & n & cs & ->).
  cbn [snd openai]. rewrite api_key_configured. split; [done|].
  unfold getenv. by intros ->.
Qed.

(** X13.  After such a run [openai.api_base] is the value of
    OPENAI_API_BASE when that variable is set; otherwise the value of
    OPENAI_BASE_URL when that one is set and not empty; otherwise what it
    was. *)
Theorem generate_stream_api_base_precedence self queries context
    conversation w :
  openai_installed p = true →
  api_base (openai (generate_stream p self queries context conversation w).2)
  = if in_environ p "OPENAI_API_BASE" then getenv p "OPENAI_API_BASE"
    else if truthy (environ_get p "OPENAI_BASE_URL")
         then PyStr (environ_get p "OPENAI_BASE_URL")
         else api_base (openai w).
Proof.
  intros Hinst.
  destruct (generate_stream_installed self queries context conversation w
              Hinst) as (r & n & cs & ->).
  cbn [snd openai]. apply api_base_configured.
Qed.

(** X14.  A second run, with any arguments, leaves the attributes of the
    [openai] module as the first run has left them. *)
Theorem generate_stream_configuration_stable self queries context
    conversation self' queries' context' conversation' w :
  let w1 := (generate_stream p self queries context conversation w).2 in
  let w2 := (generate_stream p self' queries' context' conversation' w1).2 in
  openai w2 = openai w1.
Proof.
  intros w1 w2. subst w1 w2.
  destruct (openai_installed p) eqn:Hinst.
  - destruct (generate_stream_installed self queries context conversation w
                Hinst) as (r & n & cs & ->).
    cbn [snd].
    destruct (generate_stream_installed self' queries' context' conversation'
                {| heap := heap w; openai := configured p (openai w);
                   calls := calls w
                     ++ ACreate (configured p (openai w))
                          (stream_arguments self
                             (prepare_messages queries context
                                (default [] conversation))
                             (configured p (openai w)))
                        :: replicate n ANext;
                   yielded := yielded w ++ concat (chunk_events <$> cs) |}
                Hinst) as (r' & n' & cs' & ->).
    cbn [snd openai]. apply configured_idemp.
  - by rewrite !generate_stream_not_installed by done.
Qed.

(** X15.  The outbound calls of a run: none on a machine without the
    package; otherwise one streaming request followed only by requests for
    the next chunk.  The run never calls [vertexai.init] or the blocking
    completion. *)
Theorem generate_stream_outbound_calls self queries context conversation w :
  let w' := (generate_stream p self queries context conversation w).2 in
  (if openai_installed p
   then ∃ cfg arguments n,
          new_calls w w' = ACreate cfg arguments :: replicate n ANext
   else new_calls w w' = [])
  ∧ (∀ c, c ∈ new_calls w w' →
          c = ANext ∨ ∃ cfg arguments, c = ACreate cfg arguments).
Proof.
  intros w'. subst w'.
  destruct (openai_installed p) eqn:Hinst.
  - destruct (generate_stream_installed self queries context conversation w
                Hinst) as (r & n & cs & ->).
    cbn [snd]. rewrite new_calls_app. split; [eauto|].
    intros c [->|Hin]%elem_of_cons; [eauto|].
    left. by apply elem_of_replicate in Hin as [-> _].
  - rewrite generate_stream_not_installed by done. cbn [snd].
    rewrite new_calls_same. split; [done|].
    intros c Hin. by apply elem_of_nil in Hin.
Qed.

(** X16.  The streaming request carries the composed prompt as it is and
    the model name of the generator, and no key besides [model],
    [messages], [stream], [temperature] and, under azure routing,
    [deployment_id]. *)
Theorem generate_stream_request_payload self queries context conversation w
    cfg arguments :
  ACreate cfg arguments
    ∈ new_calls w (generate_stream p self queries context conversation w).2 →
  arguments !! "messages"
  = Some (ArgMessages
            (prepare_messages queries context (default [] conversation)))
  ∧ arguments !! "model" = Some (ArgStr (model_name self))
  ∧ dom arguments
    = {[ "model"; "messages"; "stream"; "temperature" ]}
      ∪ (if bool_decide (api_type cfg = PyStr "azure")
         then {[ "deployment_id" ]} else ∅).
Proof.
  intros Hin.
  destruct (generate_stream_calls p self queries context conversation w)
    as [Hnil|[n Hcalls]].
  - rewrite Hnil in Hin. by apply elem_of_nil in Hin.
  - rewrite Hcalls in Hin. apply elem_of_cons in Hin as [Heq|Hin].
    + injection Heq as -> ->.
      pose proof (stream_arguments_lookup self
        (prepare_messages queries context (default [] conversation))
        (configured p (openai w))) as (Hmodel & Hmsgs & _).
      split; [done|]. split; [done|].
      unfold stream_arguments. case_bool_decide.
      * rewrite !dom_insert_L, dom_singleton_L. set_solver.
      * rewrite !dom_insert_L, dom_singleton_L. set_solver.
    + apply elem_of_replicate in Hin as [Hin _]. discriminate Hin.
Qed.

(** X17.  For a generator built by [__init__], the model of the streaming
    request is the value of GEMINI_MODEL when that variable is set, and
    [gemini-1.5-pro-preview-0409] otherwise. *)
Theorem generate_stream_model_from_environment queries context conversation w
    cfg arguments :
  ACreate cfg arguments
    ∈ new_calls w
        (generate_stream p (init p) queries context conversation w).2 →
  arguments !! "model"
  = Some (ArgStr match environ p !! "GEMINI_MODEL" with
                 | Some model => model
                 | None => "gemini-1.5-pro-preview-0409"
                 end).
Proof.
  intros Hin.
  destruct (generate_stream_calls p (init p) queries context conversation w)
    as [Hnil|[n Hcalls]].
  - rewrite Hnil in Hin. by apply elem_of_nil in Hin.
  - rewrite Hcalls in Hin. apply elem_of_cons in Hin as [Heq|Hin].
    + injection Heq as -> ->.
      pose proof (stream_arguments_lookup (init p)
        (prepare_messages queries context (default [] conversation))
        (configured p (openai w))) as (Hmodel & _).
      rewrite Hmodel. cbn. by destruct (environ p !! "GEMINI_MODEL").
    + apply elem_of_replicate in Hin as [Hin _]. discriminate Hin.
Qed.

End generate_stream_more.

Lemma generate_stream_event_shape_witness :
  ({[ "message" := PyStr "Hel"; "finish_reason" := PyStr "" ]}
     : gmap string pyval)
    ∈ new_events fresh_world
        (generate_stream (scenario_platform ∅ scenario_C_stream)
           (init (scenario_platform ∅ scenario_C_stream))
           ["What is X?"] ["X is a protocol."] None fresh_world).2
  ∧ dom ({[ "message" := PyStr "Hel"; "finish_reason" := PyStr "" ]}
           : gmap string pyval)
    = {[ "message"; "finish_reason" ]}.
Proof.
  assert (Hin : ({[ "message" := PyStr "Hel"; "finish_reason" := PyStr "" ]}
                   : gmap string pyval)
            ∈ new_events fresh_world
                (generate_stream (scenario_platform ∅ scenario_C_stream)
                   (init (scenario_platform ∅ scenario_C_stream))
                   ["What is X?"] ["X is a protocol."] None fresh_world).2)
    by (vm_compute; left).
  split; [exact Hin|].
  exact (proj2 (generate_stream_event_shape _ _ _ _ _ _ _ Hin)).
Defined.

Lemma generate_stream_last_finish_reason_witness :
  openai_installed (scenario_platform ∅ scenario_C_stream) = true
  ∧ ∃ event,
      last (yielded
              (generate_stream (scenario_platform ∅ scenario_C_stream)
                 (init (scenario_platform ∅ scenario_C_stream))
                 ["What is X?"] ["X is a protocol."] None fresh_world).2)
      = Some event
      ∧ event !! "finish_reason" = Some (PyStr "stop").
Proof.
  split; [reflexivity|].
  exact (proj2 (generate_stream_last_finish_reason
                  (scenario_platform ∅ scenario_C_stream)
                  (init (scenario_platform ∅ scenario_C_stream))
                  ["What is X?"] ["X is a protocol."] None fresh_world
                  [no_choice_chunk; content_chunk "Hel" ""]
                  (content_chunk "lo" "stop")
                  {| delta := {[ "content" := PyStr "lo" ]};
                     finish_reason := PyStr "stop" |} []
                  eq_refl (λ _ _, eq_refl) eq_refl)).
Defined.

Lemma generate_stream_without_openai_witness :
  openai_installed offline_platform = false
  ∧ generate_stream offline_platform (init offline_platform)
      ["What is X?"] ["X is a protocol."] None keyed_world
    = (Raises (ModuleNotFoundError "openai"), keyed_world).
Proof.
  split; [reflexivity|].
  exact (generate_stream_without_openai offline_platform
           (init offline_platform) ["What is X?"] ["X is a protocol."] None
           keyed_world eq_refl).
Defined.

Lemma generate_stream_request_refused_witness :
  openai_installed refusing_platform = true
  ∧ (generate_stream refusing_platform (init refusing_platform)
       ["What is X?"] ["X is a protocol."] None fresh_world).1
    = Raises (External "rate limit").
Proof.
  split; [reflexivity|].
  exact (proj1 (generate_stream_request_refused refusing_platform
                  (init refusing_platform) ["What is X?"]
                  ["X is a protocol."] None fresh_world "rate limit"
                  eq_refl (λ _ _, eq_refl))).
Defined.

Lemma generate_stream_overwrites_api_key_witness :
  openai_installed (scenario_platform ∅ scenario_C_stream) = true
  ∧ api_key keyed_openai = PyStr "sk-earlier"
  ∧ api_key
      (openai
         (generate_stream (scenario_platform ∅ scenario_C_stream)
            (init (scenario_platform ∅ scenario_C_stream))
            ["What is X?"] ["X is a protocol."] None keyed_world).2)
    = PyNone.
Proof.
  split; [reflexivity|]. split; [reflexivity|].
  exact (proj2 (generate_stream_overwrites_api_key
                  (scenario_platform ∅ scenario_C_stream)
                  (init (scenario_platform ∅ scenario_C_stream))
                  ["What is X?"] ["X is a protocol."] None keyed_world
                  eq_refl) eq_refl).
Defined.

Lemma generate_stream_api_base_precedence_witness :
  openai_installed refusing_platform = true
  ∧ api_base
      (openai
         (generate_stream refusing_platform (init refusing_platform)
            ["What is X?"] ["X is a protocol."] None keyed_world).2)
    = PyStr "https://example.azure.com".
Proof.
  split; [reflexivity|].
  exact (generate_stream_api_base_precedence refusing_platform
           (init refusing_platform) ["What is X?"] ["X is a protocol."] None
           keyed_world eq_refl).
Defined.

Lemma generate_stream_request_payload_witness :
  ACreate (configured azure_platform fresh_openai)
    (stream_arguments (init azure_platform)
       (prepare_messages ["What is X?"] ["X is a protocol."] [])
       (configured azure_platform fresh_openai))
    ∈ new_calls fresh_world
        (generate_stream azure_platform (init azure_platform)
           ["What is X?"] ["X is a protocol."] None fresh_world).2
  ∧ stream_arguments (init azure_platform)
      (prepare_messages ["What is X?"] ["X is a protocol."] [])
      (configured azure_platform fresh_openai) !! "messages"
    = Some (ArgMessages
              (prepare_messages ["What is X?"] ["X is a protocol."] [])).
Proof.
  assert (Hin : ACreate (configured azure_platform fresh_openai)
            (stream_arguments (init azure_platform)
               (prepare_messages ["What is X?"] ["X is a protocol."] [])
               (configured azure_platform fresh_openai))
            ∈ new_calls fresh_world
                (generate_stream azure_platform (init azure_platform)
                   ["What is X?"] ["X is a protocol."] None fresh_world).2)
    by (vm_compute; left).
  split; [exact Hin|].
  exact (proj1 (generate_stream_request_payload azure_platform
                  (init azure_platform) _ _ None _ _ _ Hin)).
Defined.

Lemma generate_stream_model_from_environment_witness :
  ACreate (configured refusing_platform fresh_openai)
    (stream_arguments (init refusing_platform)
       (prepare_messages ["What is X?"] ["X is a protocol."] [])
       (configured refusing_platform fresh_openai))
    ∈ new_calls fresh_world
        (generate_stream refusing_platform (init refusing_platform)
           ["What is X?"] ["X is a protocol."] None fresh_world).2
  ∧ stream_arguments (init refusing_platform)
      (prepare_messages ["What is X?"] ["X is a protocol."] [])
      (configured refusing_platform fresh_openai) !! "model"
    = Some (ArgStr "gemini-pro").
Proof.
  assert (Hin : ACreate (configured refusing_platform fresh_openai)
            (stream_arguments (init refusing_platform)
               (prepare_messages ["What is X?"] ["X is a protocol."] [])
               (configured refusing_platform fresh_openai))
            ∈ new_calls fresh_world
                (generate_stream refusing_platform (init refusing_platform)
                   ["What is X?"] ["X is a protocol."] None fresh_world).2)
    by (vm_compute; left).
  split; [exact Hin|].
  exact (generate_stream_model_from_environment refusing_platform
           _ _ None _ _ _ Hin).
Defined.

(** ** The blocking generator *)

Section generate_more.
Variable p : platform.
Implicit Types (w : world) (self : GPT4Generator).
Implicit Types (queries context : list string).
Implicit Types (conversation : option (list ConversationItem)).

(** X18.  A run of [generate] changes nothing but the log of calls: the
    attributes of the [openai] module stay as they were, also when
    OPENAI_BASE_URL is set, and nothing is yielded.  Its outcome does not
    depend on the generator, the queries, the context or the
    conversation. *)
Theorem generate_frame self queries context conversation self' queries'
    context' conversation' w :
  let r := generate p self queries context conversation w in
  heap r.2 = heap w
  ∧ openai r.2 = openai w
  ∧ yielded r.2 = yielded w
  ∧ generate p self' queries' context' conversation' w = r.
Proof. intros r. subst r. by rewrite !generate_run. Qed.

End generate_more.

(** ** The composer on the store *)

Section store_more.
Implicit Types (w : world) (l : positive).

(** X4.  Two calls of the composer in a row return two different list
    objects, and the second call leaves the list returned by the first as
    it was. *)
Theorem prepare_messages_store_twice (q c v q' c' v' : positive)
    (qs cs qs' cs' : list string) (items items' : list ConversationItem) w :
  heap w !! q = Some (ObjStrList qs) →
  heap w !! c = Some (ObjStrList cs) →
  heap w !! v = Some (ObjItemList items) →
  heap w !! q' = Some (ObjStrList qs') →
  heap w !! c' = Some (ObjStrList cs') →
  heap w !! v' = Some (ObjItemList items') →
  ∃ m1 w1 m2 w2,
    prepare_messages_store q c v w = (Returns m1, w1)
    ∧ prepare_messages_store q' c' v' w1 = (Returns m2, w2)
    ∧ m1 ≠ m2
    ∧ heap w2 !! m1 = Some (ObjMessageList (prepare_messages qs cs items))
    ∧ heap w2 !! m2
      = Some (ObjMessageList (prepare_messages qs' cs' items')).
Proof.
  intros Hq Hc Hv Hq' Hc' Hv'.
  set (m1 := fresh (dom (heap w))).
  assert (Hm1 : heap w !! m1 = None) by apply not_elem_of_dom, is_fresh.
  set (h1 := <[m1 := ObjMessageList (prepare_messages qs cs items)]> (heap w)).
  set (m2 := fresh (dom h1)).
  assert (Hm2 : h1 !! m2 = None) by apply not_elem_of_dom, is_fresh.
  assert (Hne : m1 ≠ m2).
  { intros Heq. rewrite <- Heq in Hm2. unfold h1 in Hm2.
    by rewrite lookup_insert_eq in Hm2. }
  assert (Hold : ∀ l o, heap w !! l = Some o → h1 !! l = Some o).
  { intros l o Hl. unfold h1. rewrite lookup_insert_ne; [done|].
    intros Heq. rewrite Heq in Hm1. congruence. }
  do 4 eexists.
  split; [by apply prepare_messages_store_run|].
  split.
  - apply prepare_messages_store_run; cbn [heap]; by apply Hold.
  - cbn [heap]. fold m1. fold h1. fold m2.
    split; [done|]. split.
    + rewrite lookup_insert_ne by done. apply lookup_insert_eq.
    + apply lookup_insert_eq.
Qed.

End store_more.

Lemma prepare_messages_store_twice_witness :
  ∃ m1 w1 m2 w2,
    prepare_messages_store 1 2 3 store_world_1 = (Returns m1, w1)
    ∧ prepare_messages_store 2 1 3 w1 = (Returns m2, w2)
    ∧ m1 ≠ m2
    ∧ heap w2 !! m1
      = Some (ObjMessageList
                (prepare_messages ["a"; "b"] ["c"] scenario_B_conversation))
    ∧ heap w2 !! m2
      = Some (ObjMessageList
                (prepare_messages ["c"] ["a"; "b"] scenario_B_conversation)).
Proof.
  exact (prepare_messages_store_twice 1 2 3 2 1 3 ["a"; "b"] ["c"] ["c"]
           ["a"; "b"] scenario_B_conversation scenario_B_conversation
           store_world_1 eq_refl eq_refl eq_refl eq_refl eq_refl eq_refl).
Defined.
